(** * Domain value types of the hazards server ([server/src/types.py])

    A shallow embedding of the enumerations, the validating constructors
    ([Date], [ImageURL], [Location]) and the plain records of [types.py],
    together with the fragment of the Python runtime they rely on.

    Conventions of the embedding.
    - A Python [str] is a Stdlib [string]; the text operations ([upper],
      [lower], [isdigit], [int]) are the ASCII ones, which is where the
      enumeration names, the dates and the image extensions live.
    - A Python [float] is a binary64 primitive float, so comparisons with
      NaN and infinities behave as they do in the interpreter.
    - A computation that may raise is a value of [result]: either
      [Return v] or [Raise e]; an exception is its class and its [args].
    - A [def] is a function of the list of positional arguments it is
      called with; binding that list to the parameters is the pattern
      match at its head, and a list of the wrong length raises [TypeError],
      as the interpreter does before the body runs.
    - The text of the exceptions that the interpreter itself raises is
      the one CPython 3.10 and later print; the statements below that
      concern them speak of the exception class. *)

From Stdlib Require Import Bool Arith ZArith Ascii String List Lia.
From Stdlib Require Import DecimalString PrimFloat.
Import ListNotations.

Local Open Scope string_scope.

(** ** The Python runtime fragment *)

Module Py.

(** Exception classes that the module raises or provokes. *)
Inductive exc_class : Type :=
| Exception_        (* the base class, [raise Exception()] *)
| ValueError
| TypeError
| IndexError
| KeyError.

Record exc : Type := MkExc { exc_class_of : exc_class; exc_args : list string }.

Inductive result (A : Type) : Type :=
| Return (a : A)
| Raise (e : exc).

Arguments Return {A} a.
Arguments Raise {A} e.

Definition bind {A B : Type} (c : result A) (k : A -> result B) : result B :=
  match c with
  | Return a => k a
  | Raise e => Raise e
  end.

(** Values that reach a [def] of this module as positional arguments:
    strings, and instances under construction (the [self] that
    [__init__] receives, which has no attribute yet). *)
Inductive value : Type :=
| VStr (s : string)
| VInstance (cls : string).

Definition type_name (v : value) : string :=
  match v with
  | VStr _ => "str"
  | VInstance cls => cls
  end.

Definition dquote : string := String "034"%char EmptyString.

Definition decimal (n : nat) : string := NilEmpty.string_of_uint (Nat.to_uint n).

(** What the interpreter raises when [given] positional arguments are
    passed to a [def] of one positional parameter [param]. *)
Definition arity_error (fname param : string) (given : nat) : exc :=
  match given with
  | O => MkExc TypeError
           [fname ++ "() missing 1 required positional argument: '" ++ param ++ "'"]
  | _ => MkExc TypeError
           [fname ++ "() takes 1 positional argument but " ++ decimal given
                  ++ " were given"]
  end.

(** [obj.f(args)] where [f] is a plain function found on the class of
    [obj]: the bound method passes [obj] as the first positional
    argument. *)
Definition call_method {R : Type} (self : value)
           (f : list value -> result R) (args : list value) : result R :=
  f (self :: args).

(** *** [str] methods (ASCII) *)

Definition upper_char (c : ascii) : ascii :=
  let n := nat_of_ascii c in
  if ((97 <=? n) && (n <=? 122))%nat then ascii_of_nat (n - 32) else c.

Definition lower_char (c : ascii) : ascii :=
  let n := nat_of_ascii c in
  if ((65 <=? n) && (n <=? 90))%nat then ascii_of_nat (n + 32) else c.

Fixpoint map_chars (f : ascii -> ascii) (s : string) : string :=
  match s with
  | EmptyString => EmptyString
  | String c r => String (f c) (map_chars f r)
  end.

Definition upper (s : string) : string := map_chars upper_char s.
Definition lower (s : string) : string := map_chars lower_char s.

Definition is_digit_char (c : ascii) : bool :=
  let n := nat_of_ascii c in ((48 <=? n) && (n <=? 57))%nat.

Fixpoint all_chars (p : ascii -> bool) (s : string) : bool :=
  match s with
  | EmptyString => true
  | String c r => p c && all_chars p r
  end.

(** [s.isdigit()]: at least one character, and all of them digits. *)
Definition isdigit (s : string) : bool :=
  match s with
  | EmptyString => false
  | _ => all_chars is_digit_char s
  end.

(** [len(s)] *)
Definition len (s : string) : nat := String.length s.

(** [s[lo:hi]] and [s[lo:]] for indices that are not negative. *)
Definition slice (lo hi : nat) (s : string) : string := substring lo (hi - lo) s.
Definition slice_from (lo : nat) (s : string) : string :=
  substring lo (String.length s - lo) s.

Definition digit_value (c : ascii) : Z := Z.of_nat (nat_of_ascii c) - 48.

Fixpoint int_acc (acc : Z) (s : string) : Z :=
  match s with
  | EmptyString => acc
  | String c r => int_acc (10 * acc + digit_value c) r
  end.

(** [int(s)] on the strings it is applied to here, which are made of
    decimal digits; anything else is reported as an invalid literal. *)
Definition int (s : string) : result Z :=
  if isdigit s then Return (int_acc 0 s)
  else Raise (MkExc ValueError
                ["invalid literal for int() with base 10: '" ++ s ++ "'"]).

(** [s[0]] *)
Definition first_char (s : string) : result ascii :=
  match s with
  | EmptyString => Raise (MkExc IndexError ["string index out of range"])
  | String c _ => Return c
  end.

(** [x in xs] for a list of strings. *)
Definition str_in (x : string) (xs : list string) : bool :=
  existsb (String.eqb x) xs.

(** *** [os.path.splitext] (posixpath: separator "/", extension
    separator ".") *)

(** [p.rfind(c)] for a one-character [c]: the highest index holding
    [c], or -1. [i] is the index of the head of [s]. *)
Fixpoint rfind_from (c : ascii) (i : Z) (s : string) : Z :=
  match s with
  | EmptyString => (-1)%Z
  | String a r =>
      let k := rfind_from c (i + 1) r in
      if (0 <=? k)%Z then k else if Ascii.eqb a c then i else (-1)%Z
  end.

Definition rfind (c : ascii) (s : string) : Z := rfind_from c 0 s.

(** The loop of [genericpath._splitext] that skips leading dots: [n]
    iterations are left and [i] is [filenameIndex]; answers whether a
    character other than "." is met before [dotIndex]. *)
Fixpoint meets_non_dot (n i : nat) (p : string) : bool :=
  match n with
  | O => false
  | S n' =>
      if negb (String.eqb (substring i 1 p) ".") then true
      else meets_non_dot n' (S i) p
  end.

Definition splitext (p : string) : string * string :=
  let sepIndex := rfind "/"%char p in
  let dotIndex := rfind "."%char p in
  if (sepIndex <? dotIndex)%Z then
    let filenameIndex := (sepIndex + 1)%Z in
    if meets_non_dot (Z.to_nat (dotIndex - filenameIndex)) (Z.to_nat filenameIndex) p
    then (slice 0 (Z.to_nat dotIndex) p, slice_from (Z.to_nat dotIndex) p)
    else (p, EmptyString)
  else (p, EmptyString).

(** [os.path.splitext] of an arbitrary argument: anything that is not a
    path is refused by [os.fspath]. *)
Definition os_path_splitext (v : value) : result (string * string) :=
  match v with
  | VStr p => Return (splitext p)
  | _ => Raise (MkExc TypeError
                  ["expected str, bytes or os.PathLike object, not " ++ type_name v])
  end.

End Py.

Import Py.

Notation "x <- c ;; k" := (Py.bind c (fun x => k))
  (at level 61, c at next level, right associativity).

(** ** Enumerations *)

(** [HazardType(Enum)] *)
Module HazardType.

Inductive t : Type := VOLCANOES | EARTHQUAKES.

(** [member.name] *)
Definition name (m : t) : string :=
  match m with
  | VOLCANOES => "VOLCANOES"
  | EARTHQUAKES => "EARTHQUAKES"
  end.

(** [HazardType.__members__], in definition order. *)
Definition __members__ : list (string * t) :=
  [("VOLCANOES", VOLCANOES); ("EARTHQUAKES", EARTHQUAKES)].

(** [key in HazardType.__members__] *)
Definition contains (key : string) : bool :=
  existsb (fun km => String.eqb key (fst km)) __members__.

(** [HazardType[key]] *)
Definition getitem (key : string) : result t :=
  match find (fun km => String.eqb key (fst km)) __members__ with
  | Some km => Return (snd km)
  | None => Raise (MkExc KeyError [key])
  end.

(** The classmethod [from_string(cls, string)], called on the class. *)
Definition from_string (string_ : string) : result t :=
  let upper_string := upper string_ in
  if contains upper_string then getitem upper_string
  else Raise (MkExc ValueError [string_ ++ " is not a valid hazard type"]).

(** The classmethod [to_string(cls, hazard_type)]. *)
Definition to_string (hazard_type : t) : string := lower (name hazard_type).

End HazardType.

(** [ImageType(Enum)] *)
Module ImageType.

Inductive t : Type :=
| GEO_BACKSCATTER
| GEO_COHERENCE
| GEO_INTERFEROGRAM
| ORTHO_BACKSCATTER
| ORTHO_COHERENCE
| ORTHO_INTERFEROGRAM.

Definition name (m : t) : string :=
  match m with
  | GEO_BACKSCATTER => "GEO_BACKSCATTER"
  | GEO_COHERENCE => "GEO_COHERENCE"
  | GEO_INTERFEROGRAM => "GEO_INTERFEROGRAM"
  | ORTHO_BACKSCATTER => "ORTHO_BACKSCATTER"
  | ORTHO_COHERENCE => "ORTHO_COHERENCE"
  | ORTHO_INTERFEROGRAM => "ORTHO_INTERFEROGRAM"
  end.

Definition __members__ : list (string * t) :=
  [("GEO_BACKSCATTER", GEO_BACKSCATTER);
   ("GEO_COHERENCE", GEO_COHERENCE);
   ("GEO_INTERFEROGRAM", GEO_INTERFEROGRAM);
   ("ORTHO_BACKSCATTER", ORTHO_BACKSCATTER);
   ("ORTHO_COHERENCE", ORTHO_COHERENCE);
   ("ORTHO_INTERFEROGRAM", ORTHO_INTERFEROGRAM)].

Definition contains (key : string) : bool :=
  existsb (fun km => String.eqb key (fst km)) __members__.

Definition getitem (key : string) : result t :=
  match find (fun km => String.eqb key (fst km)) __members__ with
  | Some km => Return (snd km)
  | None => Raise (MkExc KeyError [key])
  end.

Definition from_string (string_ : string) : result t :=
  let upper_string := upper string_ in
  if contains upper_string then getitem upper_string
  else Raise (MkExc ValueError [string_ ++ " is not a valid image type"]).

Definition to_string (image_type : t) : string := lower (name image_type).

End ImageType.

(** ** [Date] *)

Module Date.

(** An initialised instance: its only attribute is [date]. *)
Record t : Type := Build { date : string }.

(** [def is_valid_date(possible_date: str)], a plain function in the
    class body: one positional parameter, no [self], no decorator. *)
Definition is_valid_date (args : list value) : result bool :=
  match args with
  | [VStr possible_date] =>
      if (len possible_date =? 8)%nat then
        if isdigit possible_date then
          month <- int (slice 4 6 possible_date) ;;
          if ((1 <=? month) && (month <=? 12))%Z then
            day <- int (slice_from 6 possible_date) ;;
            if ((1 <=? day) && (day <=? 31))%Z then Return true
            else Return false
          else Return false
        else Return false
      else Return false
  | [VInstance cls] =>
      Raise (MkExc TypeError ["object of type '" ++ cls ++ "' has no len()"])
  | _ => Raise (arity_error "Date.is_valid_date" "possible_date" (List.length args))
  end.

(** The error of the [else] branch of [__init__]. *)
Definition invalid_date (date : string) : exc :=
  MkExc ValueError
        ["The date " ++ date ++ " is not a valid date of the form "
                     ++ dquote ++ "YYYYMMDD" ++ dquote].

(** [Date(date)]: a fresh instance is allocated and [__init__] runs on
    it; [self.is_valid_date(date)] is a bound-method call. *)
Definition __init__ (date : string) : result t :=
  let self := VInstance "Date" in
  valid <- call_method self is_valid_date [VStr date] ;;
  if valid then Return (Build date)
  else Raise (invalid_date date).

End Date.

(** ** [ImageURL] *)

Module ImageURL.

Record t : Type := Build { url : string }.

Definition valid_extensions : list string := [".jpg"; ".png"; ".tiff"; ".gif"].

(** [def is_valid_url(url)], again a plain function of one parameter.
    [filename[0] is not "/"] compares identities; one-character strings
    are shared objects in CPython, so it answers as [!=] does. *)
Definition is_valid_url (args : list value) : result bool :=
  match args with
  | [url] =>
      parts <- os_path_splitext url ;;
      let filename := fst parts in
      let file_extension := snd parts in
      c <- first_char filename ;;
      if negb (Ascii.eqb c "/") || negb (str_in file_extension valid_extensions)
      then Return false
      else Return true
  | _ => Raise (arity_error "ImageURL.is_valid_url" "url" (List.length args))
  end.

Definition invalid_url (url : string) : exc :=
  MkExc ValueError ["The url " ++ url ++ " is not a valid URL"].

Definition __init__ (url : string) : result t :=
  let self := VInstance "ImageURL" in
  valid <- call_method self is_valid_url [VStr url] ;;
  if valid then Return (Build url)
  else Raise (invalid_url url).

End ImageURL.

(** ** [LatLong] and [Location] *)

(** [@dataclass class LatLong]: two floats, no method of its own. *)
Record LatLong : Type := MkLatLong { lat : float; long : float }.

Module Location.

(** What a caller hands to [Location] for a point: an instance of
    [LatLong], as the annotations say, or a bare number. *)
Inductive point : Type :=
| OfLatLong (p : LatLong)
| OfFloat (x : float).

(** [float(v)]: a float is returned as it is; [LatLong] defines no
    [__float__], so an instance is refused. *)
Definition py_float (v : point) : result float :=
  match v with
  | OfFloat x => Return x
  | OfLatLong _ =>
      Raise (MkExc TypeError
               ["float() argument must be a string or a real number, not 'LatLong'"])
  end.

Record t : Type := Build { center : point; bounding_box : list (string * point) }.

(** [validate_latitudes(cls, north, south)], a classmethod: the class
    is bound to [cls], and [north], [south] are the two arguments of
    the call. [and] and the chained comparisons stop at the first
    false operand, so [float(south)] runs only when north passed. *)
Definition validate_latitudes (north south : point) : result bool :=
  n <- py_float north ;;
  if PrimFloat.ltb (-90)%float n && PrimFloat.ltb n 90%float then
    s <- py_float south ;;
    Return (PrimFloat.ltb (-90)%float s && PrimFloat.ltb s 90%float)
  else Return false.

(** [validate_longitudes(cls, east, west)] *)
Definition validate_longitudes (east west : point) : result bool :=
  e <- py_float east ;;
  if PrimFloat.ltb e 180%float then
    w <- py_float west ;;
    Return (PrimFloat.ltb (-180)%float w)
  else Return false.

(** The [raise Exception()] of the [else] branch: no argument. *)
Definition generic_failure : exc := MkExc Exception_ [].

Definition __init__ (center north south east west : point) : result t :=
  valid_lats <- validate_latitudes north south ;;
  valid_lons <- validate_longitudes east west ;;
  if valid_lats && valid_lons then
    Return (Build center
                  [("North", north); ("South", south); ("East", east); ("West", west)])
  else Raise generic_failure.

End Location.

(** ** Records *)

(** [@dataclass class HazardInfo], fields in declaration order. *)
Module HazardInfo.
Record t : Type := Build {
  location : Location.t;
  last_updated : Date.t;
  hazard_id : string;
  hazard_type : HazardType.t;
  name : string
}.
End HazardInfo.

(** [@dataclass class Hazard], fields in declaration order. *)
Module Hazard.
Record t : Type := Build {
  hazard_id : string;
  name : string;
  hazard_type : HazardType.t;
  location : Location.t;
  last_updated : Date.t
}.
End Hazard.

(** ** Vocabulary of the properties *)

(** The two records compared field by field. *)
Definition hazard_of_info (i : HazardInfo.t) : Hazard.t :=
  Hazard.Build (HazardInfo.hazard_id i) (HazardInfo.name i) (HazardInfo.hazard_type i)
               (HazardInfo.location i) (HazardInfo.last_updated i).

Definition info_of_hazard (h : Hazard.t) : HazardInfo.t :=
  HazardInfo.Build (Hazard.location h) (Hazard.last_updated h) (Hazard.hazard_id h)
                   (Hazard.hazard_type h) (Hazard.name h).

(** [casing_of name s]: [s] spells [name] with each letter in either
    case. *)
Fixpoint casing_of (name s : string) : bool :=
  match name, s with
  | EmptyString, EmptyString => true
  | String a name', String c s' =>
      (Ascii.eqb c (upper_char a) || Ascii.eqb c (lower_char a)) && casing_of name' s'
  | _, _ => false
  end.

(** [occurs_in x s]: [x] is a contiguous part of [s]. *)
Fixpoint occurs_in (x s : string) : bool :=
  String.prefix x s ||
  match s with
  | EmptyString => false
  | String _ r => occurs_in x r
  end.

(** An exception mentions [x] when one of its arguments contains [x],
    whatever the case of the letters. *)
Definition mentions (e : exc) (x : string) : bool :=
  existsb (fun a => occurs_in (lower x) (lower a)) (exc_args e).

(** The strings that the [Date] docstring calls dates: eight decimal
    digits, month (characters 5-6) in 1..12, day (characters 7-8) in
    1..31. *)
Definition well_formed_date (s : string) : Prop :=
  String.length s = 8 /\
  all_chars is_digit_char s = true /\
  (1 <= int_acc 0 (slice 4 6 s) <= 12)%Z /\
  (1 <= int_acc 0 (slice_from 6 s) <= 31)%Z.

(** The path part starts with a slash. *)
Definition begins_with_slash (filename : string) : bool :=
  match filename with
  | EmptyString => false
  | String c _ => Ascii.eqb c "/"
  end.

(** [lacks c s]: the character [c] does not occur in [s]. *)
Definition lacks (c : ascii) (s : string) : bool :=
  all_chars (fun a => negb (Ascii.eqb a c)) s.

(** The four bound checks on numbers, as [validate_latitudes] and
    [validate_longitudes] write them. *)
Definition within_bounds (north south east west : float) : bool :=
  (PrimFloat.ltb (-90)%float north && PrimFloat.ltb north 90%float) &&
  (PrimFloat.ltb (-90)%float south && PrimFloat.ltb south 90%float) &&
  PrimFloat.ltb east 180%float &&
  PrimFloat.ltb (-180)%float west.

(** ** Facts about the runtime fragment *)

Ltac each_char c := destruct c as [[] [] [] [] [] [] [] []].

Lemma upper_char_upper_char (c : ascii) : upper_char (upper_char c) = upper_char c.
Proof. each_char c; reflexivity. Qed.

Lemma upper_char_lower_char (c : ascii) : upper_char (lower_char c) = upper_char c.
Proof. each_char c; reflexivity. Qed.

Lemma lower_char_upper_char (c : ascii) : lower_char (upper_char c) = lower_char c.
Proof. each_char c; reflexivity. Qed.

Lemma lower_char_lower_char (c : ascii) : lower_char (lower_char c) = lower_char c.
Proof. each_char c; reflexivity. Qed.

Lemma lower_upper (s : string) : lower (upper s) = lower s.
Proof.
  unfold lower, upper.
  induction s as [|c s IH]; cbn [map_chars]; [reflexivity|].
  now rewrite lower_char_upper_char, IH.
Qed.

Lemma lower_lower (s : string) : lower (lower s) = lower s.
Proof.
  unfold lower, upper.
  induction s as [|c s IH]; cbn [map_chars]; [reflexivity|].
  now rewrite lower_char_lower_char, IH.
Qed.

Lemma upper_lower (s : string) : upper (lower s) = upper s.
Proof.
  unfold lower, upper.
  induction s as [|c s IH]; cbn [map_chars]; [reflexivity|].
  now rewrite upper_char_lower_char, IH.
Qed.

Lemma casing_of_upper (name s : string) :
  casing_of name s = true -> upper s = upper name.
Proof.
  unfold upper.
  revert s; induction name as [|a name IH]; intros [|c s];
    cbn [casing_of map_chars]; try discriminate.
  - reflexivity.
  - intros H. apply andb_true_iff in H as [Hc Hs].
    rewrite (IH _ Hs). f_equal.
    apply orb_true_iff in Hc as [Hc|Hc]; apply Ascii.eqb_eq in Hc; subst c.
    + apply upper_char_upper_char.
    + apply upper_char_lower_char.
Qed.

Lemma rfind_from_lower_bound (c : ascii) (s : string) (i : Z) :
  (0 <= i)%Z -> (-1 <= rfind_from c i s)%Z.
Proof.
  revert i; induction s as [|a s IH]; intros i Hi; simpl; [lia|].
  destruct (0 <=? rfind_from c (i + 1) s)%Z eqn:E.
  - apply Z.leb_le in E; lia.
  - destruct (Ascii.eqb a c); lia.
Qed.

(** The path part that [splitext] returns is empty only for the empty
    string: a leading dot never starts an extension. *)
Lemma splitext_path_empty (p : string) :
  fst (splitext p) = EmptyString <-> p = EmptyString.
Proof.
  split; [|intros ->; reflexivity].
  unfold splitext.
  destruct (rfind "/" p <? rfind "." p)%Z eqn:Hlt; [|exact (fun H => H)].
  destruct (meets_non_dot _ _ p) eqn:Hm; [|exact (fun H => H)].
  simpl. unfold slice.
  assert (Hsep : (-1 <= rfind "/" p)%Z) by (apply rfind_from_lower_bound; lia).
  apply Z.ltb_lt in Hlt.
  destruct (Z.to_nat (rfind "." p)) as [|d] eqn:Hd.
  - assert (Z.to_nat (rfind "." p - (rfind "/" p + 1)) = 0%nat) as Hz by lia.
    rewrite Hz in Hm. discriminate.
  - destruct p as [|c r]; [reflexivity|]. simpl. discriminate.
Qed.

(** ** The validators, called as plain functions *)

Lemma length_8_inv (s : string) :
  String.length s = 8 ->
  exists c1 c2 c3 c4 c5 c6 c7 c8,
    s = String c1 (String c2 (String c3 (String c4
          (String c5 (String c6 (String c7 (String c8 EmptyString))))))).
Proof.
  intros H.
  do 8 (destruct s as [|? s]; [discriminate H|]).
  destruct s; [|discriminate H].
  repeat eexists.
Qed.

Lemma int_two_digits (a b : ascii) :
  is_digit_char a = true -> is_digit_char b = true ->
  int (String a (String b EmptyString)) = Return (int_acc 0 (String a (String b EmptyString))).
Proof.
  intros Ha Hb. unfold int, isdigit. cbn [all_chars]. now rewrite Ha, Hb.
Qed.

(** [Date.is_valid_date(s)], called on the class with one string, answers
    [True] exactly on the well-formed dates. *)
Lemma is_valid_date_true_iff (s : string) :
  Date.is_valid_date [VStr s] = Return true <-> well_formed_date s.
Proof.
  unfold Date.is_valid_date, well_formed_date, len.
  destruct (String.length s =? 8)%nat eqn:L.
  - apply Nat.eqb_eq in L.
    destruct (length_8_inv s L) as (c1&c2&c3&c4&c5&c6&c7&c8&->).
    clear L.
    change (slice 4 6 _) with (String c5 (String c6 EmptyString)).
    change (slice_from 6 _) with (String c7 (String c8 EmptyString)).
    cbn [isdigit all_chars String.length].
    destruct (is_digit_char c1), (is_digit_char c2), (is_digit_char c3),
      (is_digit_char c4); cbn [andb];
      try (split; [discriminate | intros (_&?&_); discriminate]).
    destruct (is_digit_char c5) eqn:D5, (is_digit_char c6) eqn:D6,
      (is_digit_char c7) eqn:D7, (is_digit_char c8) eqn:D8; cbn [andb];
      try (split; [discriminate | intros (_&?&_); discriminate]).
    rewrite (int_two_digits c5 c6 D5 D6), (int_two_digits c7 c8 D7 D8).
    cbn [bind].
    set (month := int_acc 0 _). set (day := int_acc 0 _).
    destruct (Z.leb_spec 1 month), (Z.leb_spec month 12),
      (Z.leb_spec 1 day), (Z.leb_spec day 31); cbn [andb];
      (split; [try discriminate; intros _; repeat split; assumption
              | try reflexivity; intros (_&_&?&?); lia]).
  - apply Nat.eqb_neq in L. split; [discriminate | intros (?&_); contradiction].
Qed.


(** [ImageURL.is_valid_url(url)], called on the class with one non-empty
    string, answers whether the path part starts with a slash and the
    extension is an allowed one. *)
Lemma is_valid_url_nonempty (url : string) :
  url <> EmptyString ->
  ImageURL.is_valid_url [VStr url] =
  Return (begins_with_slash (fst (splitext url)) &&
          str_in (snd (splitext url)) ImageURL.valid_extensions).
Proof.
  intros Hne. unfold ImageURL.is_valid_url, os_path_splitext. cbn [bind].
  destruct (fst (splitext url)) as [|c r] eqn:Hf.
  - exfalso. apply Hne. now apply (proj1 (splitext_path_empty url)).
  - cbn [first_char bind begins_with_slash].
    destruct (Ascii.eqb c "/"), (str_in _ _); reflexivity.
Qed.

Example is_valid_url_accepts : ImageURL.is_valid_url [VStr "/images/a.jpg"] = Return true.
Proof. reflexivity. Qed.

Example is_valid_url_no_slash : ImageURL.is_valid_url [VStr "images/a.jpg"] = Return false.
Proof. reflexivity. Qed.

Example is_valid_url_bmp : ImageURL.is_valid_url [VStr "/images/a.bmp"] = Return false.
Proof. reflexivity. Qed.

(** A name made of an extension alone is a path with no extension. *)
Example is_valid_url_dot_jpg :
  splitext ".jpg" = (".jpg", EmptyString) /\
  ImageURL.is_valid_url [VStr ".jpg"] = Return false.
Proof. split; reflexivity. Qed.

(** [Location] called with four numbers: the bound checks decide. *)
Lemma Location_init_numbers (center : Location.point) (north south east west : float) :
  Location.__init__ center (Location.OfFloat north) (Location.OfFloat south)
                    (Location.OfFloat east) (Location.OfFloat west) =
  if within_bounds north south east west
  then Return (Location.Build center
                 [("North", Location.OfFloat north); ("South", Location.OfFloat south);
                  ("East", Location.OfFloat east); ("West", Location.OfFloat west)])
  else Raise Location.generic_failure.
Proof.
  unfold Location.__init__, Location.validate_latitudes, Location.validate_longitudes,
    within_bounds.
  cbn [Location.py_float bind].
  destruct (PrimFloat.ltb (-90)%float north), (PrimFloat.ltb north 90%float),
    (PrimFloat.ltb (-90)%float south), (PrimFloat.ltb south 90%float),
    (PrimFloat.ltb east 180%float), (PrimFloat.ltb (-180)%float west); reflexivity.
Qed.

Example Location_init_numbers_example :
  exists l,
    Location.__init__ (Location.OfFloat 0) (Location.OfFloat 45) (Location.OfFloat (-45))
                      (Location.OfFloat 90) (Location.OfFloat (-90)) = Return l.
Proof. eexists; reflexivity. Qed.

Lemma HazardType_contains_name (key : string) :
  HazardType.contains key = true -> exists m, key = HazardType.name m.
Proof.
  unfold HazardType.contains, HazardType.__members__. cbn [existsb fst].
  intros H. repeat (apply orb_true_iff in H as [H|H]); try discriminate H;
    apply String.eqb_eq in H; subst key.
  - now exists HazardType.VOLCANOES.
  - now exists HazardType.EARTHQUAKES.
Qed.

Lemma ImageType_contains_name (key : string) :
  ImageType.contains key = true -> exists m, key = ImageType.name m.
Proof.
  unfold ImageType.contains, ImageType.__members__. cbn [existsb fst].
  intros H. repeat (apply orb_true_iff in H as [H|H]); try discriminate H;
    apply String.eqb_eq in H; subst key.
  - now exists ImageType.GEO_BACKSCATTER.
  - now exists ImageType.GEO_COHERENCE.
  - now exists ImageType.GEO_INTERFEROGRAM.
  - now exists ImageType.ORTHO_BACKSCATTER.
  - now exists ImageType.ORTHO_COHERENCE.
  - now exists ImageType.ORTHO_INTERFEROGRAM.
Qed.

(** ** The properties of the specification *)

(** C1. Constructing a [Date] from a well-formed date is expected to
    succeed and to expose the string. The code does not: whatever the
    string, [self.is_valid_date(date)] hands two positional arguments to a
    function of one parameter, so [Date(date)] raises [TypeError] before
    any validation runs; the docstring's [Date("20190411")] is one such
    call. *)
Theorem Date_init_raises_TypeError (date : string) :
  Date.__init__ date =
  Raise (arity_error "Date.is_valid_date" "possible_date" 2) /\
  Date.__init__ "20190411" <> Return (Date.Build "20190411").
Proof. split; [reflexivity | discriminate]. Qed.

(** C5. Constructing a [Date] from a string that is not a date is
    expected to raise the [ValueError] that names the string. The code
    raises a [TypeError] instead, the one of the call to
    [is_valid_date]; no [Date] is produced. *)
Theorem Date_init_never_raises_invalid_date (date : string) :
  Date.__init__ date <> Raise (Date.invalid_date date) /\
  (forall d, Date.__init__ date <> Return d) /\
  exists e, Date.__init__ date = Raise e /\ exc_class_of e = TypeError.
Proof.
  repeat split; try discriminate.
  eexists; split; reflexivity.
Qed.

(** C2. [Location] called with [LatLong] instances, the declared type of
    its parameters, raises [TypeError] at [float(north)], whatever the
    coordinates; so does the call with north (45,0), south (-45,0), east
    (90,0), west (-90,0), which is expected to succeed. *)
Theorem Location_init_LatLong_raises_TypeError
        (center south east west : Location.point) (north : LatLong) :
  Location.__init__ center (Location.OfLatLong north) south east west =
  Raise (MkExc TypeError
           ["float() argument must be a string or a real number, not 'LatLong'"]) /\
  Location.__init__ (Location.OfLatLong (MkLatLong 0 0))
                    (Location.OfLatLong (MkLatLong 45 0))
                    (Location.OfLatLong (MkLatLong (-45) 0))
                    (Location.OfLatLong (MkLatLong 90 0))
                    (Location.OfLatLong (MkLatLong (-90) 0)) =
  Raise (MkExc TypeError
           ["float() argument must be a string or a real number, not 'LatLong'"]).
Proof. split; reflexivity. Qed.

(** C3. Constructing an [ImageURL] is expected to succeed on
    "/images/a.jpg". The code raises [TypeError] for every string:
    [self.is_valid_url(url)] hands two positional arguments to a function
    of one parameter. *)
Theorem ImageURL_init_raises_TypeError (url : string) :
  ImageURL.__init__ url =
  Raise (arity_error "ImageURL.is_valid_url" "url" 2) /\
  ImageURL.__init__ "/images/a.jpg" <> Return (ImageURL.Build "/images/a.jpg").
Proof. split; [reflexivity | discriminate]. Qed.

(** C4. For every member of [HazardType] and of [ImageType],
    [from_string (to_string m)] is [m], and [to_string m] is the member
    name in lower case. *)
Theorem enum_to_string_from_string :
  (forall m : HazardType.t,
      HazardType.from_string (HazardType.to_string m) = Return m /\
      HazardType.to_string m = lower (HazardType.name m) /\
      lower (HazardType.to_string m) = HazardType.to_string m /\
      upper (HazardType.to_string m) = HazardType.name m) /\
  (forall m : ImageType.t,
      ImageType.from_string (ImageType.to_string m) = Return m /\
      ImageType.to_string m = lower (ImageType.name m) /\
      lower (ImageType.to_string m) = ImageType.to_string m /\
      upper (ImageType.to_string m) = ImageType.name m).
Proof. split; intros []; repeat split. Qed.

(** C6. [HazardType.from_string] ignores the case of the letters: on any
    casing [s] of the name of a member [m] it returns [m], and
    [to_string] of the result is [s] in lower case, itself a lower-case
    string. *)
Theorem HazardType_from_string_any_casing (m : HazardType.t) (s : string) :
  casing_of (HazardType.name m) s = true ->
  HazardType.from_string s = Return m /\
  HazardType.to_string m = lower s /\
  lower (HazardType.to_string m) = HazardType.to_string m.
Proof.
  intros H. apply casing_of_upper in H.
  unfold HazardType.from_string, HazardType.to_string.
  rewrite lower_lower, <- (lower_upper s), H, lower_upper.
  repeat split. destruct m; reflexivity.
Qed.

Lemma HazardType_from_string_any_casing_witness :
  (HazardType.from_string "volcanoes" = Return HazardType.VOLCANOES /\
   HazardType.to_string HazardType.VOLCANOES = lower "volcanoes") /\
  (HazardType.from_string "Volcanoes" = Return HazardType.VOLCANOES /\
   HazardType.to_string HazardType.VOLCANOES = lower "Volcanoes") /\
  (HazardType.from_string "EARTHQUAKES" = Return HazardType.EARTHQUAKES /\
   HazardType.to_string HazardType.EARTHQUAKES = lower "EARTHQUAKES").
Proof.
  split; [|split].
  - destruct (HazardType_from_string_any_casing HazardType.VOLCANOES "volcanoes" eq_refl)
      as (Hparse & Hformat & _).
    exact (conj Hparse Hformat).
  - destruct (HazardType_from_string_any_casing HazardType.VOLCANOES "Volcanoes" eq_refl)
      as (Hparse & Hformat & _).
    exact (conj Hparse Hformat).
  - destruct (HazardType_from_string_any_casing HazardType.EARTHQUAKES "EARTHQUAKES" eq_refl)
      as (Hparse & Hformat & _).
    exact (conj Hparse Hformat).
Defined.

(** C7, as stated: the error of a failed [from_string] carries the given
    string and the valid member names. It fails on "tsunami": the
    message does not name any member. *)
Lemma from_string_error_names_no_member :
  ~ (exists e,
        HazardType.from_string "tsunami" = Raise e /\
        mentions e "tsunami" = true /\
        forall m, mentions e (HazardType.name m) = true).
Proof.
  intros (e & He & _ & Hm).
  injection He as <-.
  specialize (Hm HazardType.VOLCANOES). discriminate Hm.
Qed.

(** C7, amended. On a string whose upper-case form is the name of no
    member, [from_string] raises [ValueError] with one argument, the
    given string followed by " is not a valid hazard type" (" is not a
    valid image type" for [ImageType]). *)
Theorem from_string_unknown_raises_ValueError (s : string) :
  ((forall m, upper s <> HazardType.name m) ->
   HazardType.from_string s =
   Raise (MkExc ValueError [s ++ " is not a valid hazard type"])) /\
  ((forall m, upper s <> ImageType.name m) ->
   ImageType.from_string s =
   Raise (MkExc ValueError [s ++ " is not a valid image type"])).
Proof.
  split; intros H.
  - unfold HazardType.from_string.
    destruct (HazardType.contains (upper s)) eqn:E; [|reflexivity].
    apply HazardType_contains_name in E as [m E]. now elim (H m).
  - unfold ImageType.from_string.
    destruct (ImageType.contains (upper s)) eqn:E; [|reflexivity].
    apply ImageType_contains_name in E as [m E]. now elim (H m).
Qed.

Lemma from_string_unknown_raises_ValueError_witness :
  (forall m, upper "tsunami" <> HazardType.name m) /\
  (forall m, upper "tsunami" <> ImageType.name m) /\
  HazardType.from_string "tsunami" =
  Raise (MkExc ValueError ["tsunami is not a valid hazard type"]) /\
  ImageType.from_string "tsunami" =
  Raise (MkExc ValueError ["tsunami is not a valid image type"]).
Proof.
  assert (H1 : forall m, upper "tsunami" <> HazardType.name m)
    by (intros []; discriminate).
  assert (H2 : forall m, upper "tsunami" <> ImageType.name m)
    by (intros []; discriminate).
  split; [exact H1 | split; [exact H2 | split]].
  - exact (proj1 (from_string_unknown_raises_ValueError "tsunami") H1).
  - exact (proj2 (from_string_unknown_raises_ValueError "tsunami") H2).
Defined.

(** C8, as stated: a failed bound check raises an error that identifies
    the offending field. It fails with north = 90: the exception has no
    argument at all, so it mentions nothing. *)
Lemma Location_init_failure_names_no_field :
  ~ (exists e field,
        Location.__init__ (Location.OfFloat 0) (Location.OfFloat 90)
                          (Location.OfFloat (-45)) (Location.OfFloat 90)
                          (Location.OfFloat (-90)) = Raise e /\
        mentions e field = true).
Proof.
  intros (e & field & He & Hm).
  injection He as <-. discriminate Hm.
Qed.

(** C8, amended. Whenever the two validations return and one of them
    answers false, [Location] raises the bare [Exception()], which
    carries no argument. *)
Theorem Location_init_failure_is_generic
        (center north south east west : Location.point) (valid_lats valid_lons : bool) :
  Location.validate_latitudes north south = Return valid_lats ->
  Location.validate_longitudes east west = Return valid_lons ->
  valid_lats && valid_lons = false ->
  Location.__init__ center north south east west = Raise (MkExc Exception_ []).
Proof.
  intros Hlat Hlon Hboth. unfold Location.__init__.
  rewrite Hlat, Hlon. cbn [bind]. now rewrite Hboth.
Qed.

Lemma Location_init_failure_is_generic_witness :
  Location.__init__ (Location.OfFloat 0) (Location.OfFloat 90)
                    (Location.OfFloat (-45)) (Location.OfFloat 90)
                    (Location.OfFloat (-90)) = Raise (MkExc Exception_ []).
Proof.
  apply (Location_init_failure_is_generic _ _ _ _ _ false true); reflexivity.
Defined.

(** C9. [Hazard] and [HazardInfo] have the same five fields with the
    same types: the two conversions are inverse to each other and keep
    every field. *)
Theorem Hazard_HazardInfo_same_fields :
  (forall h, hazard_of_info (info_of_hazard h) = h) /\
  (forall i, info_of_hazard (hazard_of_info i) = i) /\
  (forall i,
      Hazard.hazard_id (hazard_of_info i) = HazardInfo.hazard_id i /\
      Hazard.name (hazard_of_info i) = HazardInfo.name i /\
      Hazard.hazard_type (hazard_of_info i) = HazardInfo.hazard_type i /\
      Hazard.location (hazard_of_info i) = HazardInfo.location i /\
      Hazard.last_updated (hazard_of_info i) = HazardInfo.last_updated i).
Proof.
  split; [|split].
  - intros []; reflexivity.
  - intros []; reflexivity.
  - intros i; repeat split.
Qed.

(** C10. On a string whose path part is empty, [is_valid_url] evaluates
    [filename[0]] with nothing that guards it and raises [IndexError]:
    it returns no boolean, and the error is not the [ValueError] of
    [ImageURL]. The empty string is such an input. *)
Theorem is_valid_url_empty_path_raises_IndexError (url : string) :
  fst (splitext url) = EmptyString ->
  ImageURL.is_valid_url [VStr url] =
  Raise (MkExc IndexError ["string index out of range"]) /\
  (forall b, ImageURL.is_valid_url [VStr url] <> Return b) /\
  ImageURL.is_valid_url [VStr url] <> Raise (ImageURL.invalid_url url).
Proof.
  intros H. unfold ImageURL.is_valid_url, os_path_splitext. cbn [bind].
  rewrite H. cbn [first_char bind]. repeat split; discriminate.
Qed.

Lemma is_valid_url_empty_path_raises_IndexError_witness :
  fst (splitext "") = EmptyString /\
  ImageURL.is_valid_url [VStr ""] =
  Raise (MkExc IndexError ["string index out of range"]).
Proof.
  split; [reflexivity|].
  apply (is_valid_url_empty_path_raises_IndexError ""). reflexivity.
Defined.

(** ** Further properties of the code *)

(** *** Enumerations *)

Lemma HazardType_getitem_name (m : HazardType.t) :
  HazardType.getitem (HazardType.name m) = Return m.
Proof. destruct m; reflexivity. Qed.

Lemma ImageType_getitem_name (m : ImageType.t) :
  ImageType.getitem (ImageType.name m) = Return m.
Proof. destruct m; reflexivity. Qed.

Lemma HazardType_contains_its_names (m : HazardType.t) :
  HazardType.contains (HazardType.name m) = true.
Proof. destruct m; reflexivity. Qed.

Lemma ImageType_contains_its_names (m : ImageType.t) :
  ImageType.contains (ImageType.name m) = true.
Proof. destruct m; reflexivity. Qed.

(** [from_string] returns a member exactly when the upper-case form of
    the string is that member's name, in both enumerations. *)
Theorem from_string_returns_iff (s : string) :
  (forall m, HazardType.from_string s = Return m <-> upper s = HazardType.name m) /\
  (forall m, ImageType.from_string s = Return m <-> upper s = ImageType.name m).
Proof.
  split; intros m.
  - unfold HazardType.from_string. split.
    + destruct (HazardType.contains (upper s)) eqn:E; [|discriminate].
      apply HazardType_contains_name in E as [m' E]. rewrite E.
      rewrite HazardType_getitem_name. now intros [= ->].
    + intros ->. now rewrite HazardType_contains_its_names, HazardType_getitem_name.
  - unfold ImageType.from_string. split.
    + destruct (ImageType.contains (upper s)) eqn:E; [|discriminate].
      apply ImageType_contains_name in E as [m' E]. rewrite E.
      rewrite ImageType_getitem_name. now intros [= ->].
    + intros ->. now rewrite ImageType_contains_its_names, ImageType_getitem_name.
Qed.

(** When [from_string] raises, the exception is the [ValueError] built
    from the given string; the lookup [cls[upper_string]] behind the
    membership test never raises [KeyError]. *)
Theorem from_string_raises_only_ValueError (s : string) (e : exc) :
  (HazardType.from_string s = Raise e ->
   e = MkExc ValueError [s ++ " is not a valid hazard type"]) /\
  (ImageType.from_string s = Raise e ->
   e = MkExc ValueError [s ++ " is not a valid image type"]).
Proof.
  split.
  - unfold HazardType.from_string.
    destruct (HazardType.contains (upper s)) eqn:E; [|now intros [= <-]].
    apply HazardType_contains_name in E as [m E]. rewrite E.
    rewrite HazardType_getitem_name. discriminate.
  - unfold ImageType.from_string.
    destruct (ImageType.contains (upper s)) eqn:E; [|now intros [= <-]].
    apply ImageType_contains_name in E as [m E]. rewrite E.
    rewrite ImageType_getitem_name. discriminate.
Qed.

Lemma from_string_raises_only_ValueError_witness :
  (exists e, HazardType.from_string "lava flows" = Raise e /\
             e = MkExc ValueError ["lava flows is not a valid hazard type"]) /\
  (exists e, ImageType.from_string "geo" = Raise e /\
             e = MkExc ValueError ["geo is not a valid image type"]).
Proof.
  split; eexists; (split; [reflexivity|]).
  - apply (proj1 (from_string_raises_only_ValueError "lava flows" _)). reflexivity.
  - apply (proj2 (from_string_raises_only_ValueError "geo" _)). reflexivity.
Defined.

(** [ImageType.from_string] ignores the case of the letters: on any
    casing [s] of the name of a member [m] it returns [m], and
    [to_string m] is [s] in lower case. *)
Theorem ImageType_from_string_any_casing (m : ImageType.t) (s : string) :
  casing_of (ImageType.name m) s = true ->
  ImageType.from_string s = Return m /\
  ImageType.to_string m = lower s.
Proof.
  intros H. apply casing_of_upper in H.
  unfold ImageType.from_string, ImageType.to_string.
  rewrite <- (lower_upper s), H, lower_upper.
  split; [|reflexivity]. destruct m; reflexivity.
Qed.

Lemma ImageType_from_string_any_casing_witness :
  casing_of (ImageType.name ImageType.GEO_COHERENCE) "Geo_Coherence" = true /\
  ImageType.from_string "Geo_Coherence" = Return ImageType.GEO_COHERENCE /\
  ImageType.to_string ImageType.GEO_COHERENCE = lower "Geo_Coherence".
Proof.
  split; [reflexivity|].
  exact (ImageType_from_string_any_casing ImageType.GEO_COHERENCE "Geo_Coherence" eq_refl).
Defined.

(** *** [Date.is_valid_date] *)


Lemma length_2_inv (s : string) :
  String.length s = 2 -> exists a b, s = String a (String b EmptyString).
Proof.
  intros H. do 2 (destruct s as [|? s]; [discriminate H|]).
  destruct s; [|discriminate H]. repeat eexists.
Qed.

Lemma length_4_inv (s : string) :
  String.length s = 4 ->
  exists a b c d, s = String a (String b (String c (String d EmptyString))).
Proof.
  intros H. do 4 (destruct s as [|? s]; [discriminate H|]).
  destruct s; [|discriminate H]. repeat eexists.
Qed.

(** Year, month and day are checked apart from each other: any four
    digits followed by a two-digit month in 1..12 and a two-digit day in
    1..31 are accepted, whatever the month's length (the 31st of
    February passes). *)
Theorem is_valid_date_accepts_year_month_day (y m d : string) :
  String.length y = 4 -> all_chars is_digit_char y = true ->
  String.length m = 2 -> all_chars is_digit_char m = true ->
  String.length d = 2 -> all_chars is_digit_char d = true ->
  (1 <= int_acc 0 m <= 12)%Z ->
  (1 <= int_acc 0 d <= 31)%Z ->
  Date.is_valid_date [VStr (y ++ m ++ d)] = Return true.
Proof.
  intros Ly Dy Lm Dm Ld Dd Hm Hd.
  destruct (length_4_inv y Ly) as (y1 & y2 & y3 & y4 & ->).
  destruct (length_2_inv m Lm) as (m1 & m2 & ->).
  destruct (length_2_inv d Ld) as (d1 & d2 & ->).
  apply is_valid_date_true_iff. unfold well_formed_date.
  cbn [append].
  change (slice 4 6 _) with (String m1 (String m2 EmptyString)).
  change (slice_from 6 _) with (String d1 (String d2 EmptyString)).
  cbn [all_chars] in *.
  repeat match goal with
         | H : _ && _ = true |- _ => apply andb_true_iff in H as [? H]
         end.
  repeat split; try assumption; try (apply Hm); try (apply Hd).
  repeat (apply andb_true_iff; split; [assumption|]). reflexivity.
Qed.

Lemma is_valid_date_accepts_year_month_day_witness :
  Date.is_valid_date [VStr ("2019" ++ "02" ++ "31")] = Return true.
Proof.
  apply (is_valid_date_accepts_year_month_day "2019" "02" "31");
    try reflexivity; split; vm_compute; discriminate.
Defined.

(** *** [Location] *)


(** A NaN in any of the four positions makes [Location], called with
    numbers, raise its generic exception: every comparison with NaN is
    false. *)
Theorem Location_init_rejects_nan (center : Location.point) (n s e w : float) :
  n = nan \/ s = nan \/ e = nan \/ w = nan ->
  Location.__init__ center (Location.OfFloat n) (Location.OfFloat s)
                    (Location.OfFloat e) (Location.OfFloat w) =
  Raise Location.generic_failure.
Proof.
  intros H. rewrite Location_init_numbers. unfold within_bounds.
  destruct H as [ -> | [ -> | [ -> | -> ] ] ];
    repeat match goal with
           | |- context [PrimFloat.ltb ?a ?b] =>
               lazymatch b with
               | nan => fail
               | _ => lazymatch a with nan => fail | _ => destruct (PrimFloat.ltb a b) end
               end
           end; reflexivity.
Qed.

Lemma Location_init_rejects_nan_witness :
  Location.__init__ (Location.OfFloat 0) (Location.OfFloat 45) (Location.OfFloat nan)
                    (Location.OfFloat 90) (Location.OfFloat (-90)) =
  Raise Location.generic_failure.
Proof.
  apply (Location_init_rejects_nan (Location.OfFloat 0) 45 nan 90 (-90)).
  right; left; reflexivity.
Defined.

(** [Location] never compares north with south: whenever it accepts
    four points it also accepts them with north and south exchanged. *)
Theorem Location_init_north_south_exchange
        (center north south east west : Location.point) (l : Location.t) :
  Location.__init__ center north south east west = Return l ->
  Location.__init__ center south north east west =
  Return (Location.Build center
            [("North", south); ("South", north); ("East", east); ("West", west)]).
Proof.
  destruct north as [?|n], south as [?|s], east as [?|e], west as [?|w];
    unfold Location.__init__, Location.validate_latitudes,
      Location.validate_longitudes;
    cbn [Location.py_float bind];
    repeat match goal with
           | |- context [PrimFloat.ltb ?a ?b] => destruct (PrimFloat.ltb a b) eqn:?
           end;
    cbn [andb bind]; try discriminate; reflexivity.
Qed.

Lemma Location_init_north_south_exchange_witness :
  Location.__init__ (Location.OfFloat 0) (Location.OfFloat (-45)) (Location.OfFloat 45)
                    (Location.OfFloat 90) (Location.OfFloat (-90)) =
  Return (Location.Build (Location.OfFloat 0)
            [("North", Location.OfFloat (-45)); ("South", Location.OfFloat 45);
             ("East", Location.OfFloat 90); ("West", Location.OfFloat (-90))]).
Proof.
  apply (Location_init_north_south_exchange
           (Location.OfFloat 0) (Location.OfFloat 45) (Location.OfFloat (-45))
           (Location.OfFloat 90) (Location.OfFloat (-90))
           (Location.Build (Location.OfFloat 0)
              [("North", Location.OfFloat 45); ("South", Location.OfFloat (-45));
               ("East", Location.OfFloat 90); ("West", Location.OfFloat (-90))])).
  reflexivity.
Defined.

(** *** [ImageURL.is_valid_url] *)

Lemma substring_split (d : nat) (p : string) :
  substring 0 d p ++ substring d (String.length p - d) p = p.
Proof.
  revert d; induction p as [|c r IH]; intros [|d]; cbn [substring String.length Nat.sub append].
  - reflexivity.
  - reflexivity.
  - f_equal. specialize (IH 0). rewrite Nat.sub_0_r in IH.
    destruct r; [reflexivity|exact IH].
  - f_equal. apply IH.
Qed.

(** The two parts that [splitext] returns always make up the path. *)
Lemma splitext_concat (p : string) : fst (splitext p) ++ snd (splitext p) = p.
Proof.
  unfold splitext.
  destruct (rfind "/" p <? rfind "." p)%Z; cbn [fst snd].
  - destruct (meets_non_dot _ _ p); cbn [fst snd].
    + unfold slice, slice_from. rewrite Nat.sub_0_r. apply substring_split.
    + clear. induction p; cbn; congruence.
  - clear. induction p; cbn; congruence.
Qed.

Lemma rfind_from_lacks (c : ascii) (s : string) (i : Z) :
  lacks c s = true -> rfind_from c i s = (-1)%Z.
Proof.
  unfold lacks. revert i; induction s as [|a s IH]; intros i; cbn [all_chars rfind_from].
  - reflexivity.
  - intros H. apply andb_true_iff in H as [Ha Hs].
    rewrite (IH _ Hs). cbn. apply negb_true_iff in Ha. now rewrite Ha.
Qed.

Lemma str_in_In (x : string) (xs : list string) : str_in x xs = true -> In x xs.
Proof.
  unfold str_in. intros H. apply existsb_exists in H as (y & Hy & E).
  apply String.eqb_eq in E. now subst y.
Qed.

(** [is_valid_url] raises on the empty string and on no other string. *)
Theorem is_valid_url_raises_iff_empty (url : string) :
  (exists e, ImageURL.is_valid_url [VStr url] = Raise e) <-> url = EmptyString.
Proof.
  split.
  - intros [e He]. destruct url as [|c r]; [reflexivity|].
    rewrite is_valid_url_nonempty in He by discriminate. discriminate He.
  - intros ->. eexists. reflexivity.
Qed.

(** A string that [is_valid_url] accepts starts with a slash and ends
    with one of the four allowed extensions. *)
Theorem is_valid_url_accepted_shape (url : string) :
  ImageURL.is_valid_url [VStr url] = Return true ->
  exists rest ext,
    url = "/" ++ rest ++ ext /\ In ext ImageURL.valid_extensions.
Proof.
  intros H.
  assert (Hne : url <> EmptyString) by (intros ->; discriminate H).
  rewrite (is_valid_url_nonempty url Hne) in H.
  injection H as H. apply andb_true_iff in H as [Hslash Hext].
  pose proof (splitext_concat url) as Hcat.
  destruct (fst (splitext url)) as [|c rest]; [discriminate Hslash|].
  cbn [begins_with_slash] in Hslash. apply Ascii.eqb_eq in Hslash. subst c.
  exists rest, (snd (splitext url)). split.
  - symmetry. exact Hcat.
  - now apply str_in_In.
Qed.

Lemma is_valid_url_accepted_shape_witness :
  exists rest ext,
    "/images/a.tiff" = "/" ++ rest ++ ext /\ In ext ImageURL.valid_extensions.
Proof.
  apply (is_valid_url_accepted_shape "/images/a.tiff"). reflexivity.
Defined.

(** A non-empty string without a dot has no extension and is rejected. *)
Theorem is_valid_url_rejects_without_dot (url : string) :
  url <> EmptyString -> lacks "." url = true ->
  ImageURL.is_valid_url [VStr url] = Return false.
Proof.
  intros Hne Hdot. rewrite (is_valid_url_nonempty url Hne).
  assert (Hsplit : splitext url = (url, EmptyString)).
  { unfold splitext.
    replace (rfind "." url) with (-1)%Z
      by (symmetry; apply rfind_from_lacks; exact Hdot).
    assert (Hsep : (-1 <= rfind "/" url)%Z) by (apply rfind_from_lower_bound; lia).
    destruct (rfind "/" url <? -1)%Z eqn:E; [apply Z.ltb_lt in E; lia|reflexivity]. }
  rewrite Hsplit. cbn [fst snd].
  change (str_in EmptyString ImageURL.valid_extensions) with false.
  now rewrite andb_false_r.
Qed.

Lemma is_valid_url_rejects_without_dot_witness :
  ImageURL.is_valid_url [VStr "/images/jpg"] = Return false.
Proof.
  apply (is_valid_url_rejects_without_dot "/images/jpg"); [discriminate | reflexivity].
Defined.

Lemma lacks_app (c : ascii) (a b : string) :
  lacks c (a ++ b) = lacks c a && lacks c b.
Proof.
  unfold lacks. induction a as [|x a IH]; cbn [append all_chars]; [reflexivity|].
  now rewrite IH, andb_assoc.
Qed.

Lemma length_append (a b : string) :
  String.length (a ++ b) = (String.length a + String.length b)%nat.
Proof. induction a as [|x a IH]; cbn [append String.length plus]; congruence. Qed.

Lemma rfind_from_upper_bound (c : ascii) (s : string) (i : Z) :
  (0 <= i)%Z -> (rfind_from c i s < i + Z.of_nat (String.length s))%Z.
Proof.
  revert i; induction s as [|a s IH]; intros i Hi; cbn [rfind_from String.length].
  - lia.
  - specialize (IH (i + 1)%Z ltac:(lia)).
    destruct (0 <=? rfind_from c (i + 1) s)%Z; [lia|].
    destruct (Ascii.eqb a c); lia.
Qed.

Lemma rfind_from_app_lacks_r (c : ascii) (s t : string) (i : Z) :
  lacks c t = true -> rfind_from c i (s ++ t) = rfind_from c i s.
Proof.
  intros Ht. revert i; induction s as [|a s IH]; intros i; cbn [append rfind_from].
  - now apply rfind_from_lacks.
  - now rewrite IH.
Qed.

Lemma rfind_from_app_lacks_l (c : ascii) (s t : string) (i : Z) :
  (0 <= i)%Z -> lacks c s = true ->
  rfind_from c i (s ++ t) = rfind_from c (i + Z.of_nat (String.length s)) t.
Proof.
  revert i; induction s as [|a s IH]; intros i Hi Hs;
    cbn [append rfind_from String.length].
  - f_equal. cbn. lia.
  - unfold lacks in Hs. cbn [all_chars] in Hs. apply andb_true_iff in Hs as [Ha Hs].
    rewrite (IH (i + 1)%Z ltac:(lia) Hs).
    replace (i + 1 + Z.of_nat (String.length s))%Z
      with (i + Z.of_nat (S (String.length s)))%Z by lia.
    pose proof (rfind_from_lower_bound c t (i + Z.of_nat (S (String.length s)))
                  ltac:(lia)) as Hlow.
    apply negb_true_iff in Ha. rewrite Ha.
    destruct (Z.leb_spec 0 (rfind_from c (i + Z.of_nat (S (String.length s))) t)); lia.
Qed.

Lemma substring_0_app (a b : string) : substring 0 (String.length a) (a ++ b) = a.
Proof.
  induction a as [|x a IH]; cbn [String.length append substring].
  - now destruct b.
  - now rewrite IH.
Qed.

Lemma append_inv_head (a b c : string) : a ++ b = a ++ c -> b = c.
Proof.
  induction a as [|x a IH]; cbn [append]; [trivial|].
  intros [= H]. now apply IH.
Qed.

Lemma substring_1_lacks (c : ascii) (w t : string) (i : nat) :
  lacks c w = true -> (i < String.length w)%nat ->
  exists ch, substring i 1 (w ++ t) = String ch EmptyString /\ Ascii.eqb ch c = false.
Proof.
  unfold lacks. revert i; induction w as [|x w IH]; intros i Hw Hi;
    cbn [String.length] in Hi; [lia|].
  cbn [all_chars] in Hw. apply andb_true_iff in Hw as [Hx Hw].
  destruct i as [|i]; cbn [append substring].
  - exists x. split; [now destruct (w ++ t)|now apply negb_true_iff].
  - apply IH; [exact Hw|lia].
Qed.

Lemma rfind_from_dot_ext (j : Z) (ext' : string) :
  lacks "." ext' = true -> rfind_from "." j (String "." ext') = j.
Proof.
  intros H. cbn [rfind_from]. rewrite (rfind_from_lacks _ _ _ H).
  change (0 <=? -1)%Z with false. cbv iota. now rewrite Ascii.eqb_refl.
Qed.

(** What [splitext] does with a path made of a slash, a directory part
    and a base name without dots, and an extension [ext] that starts
    with its only dot. *)
Lemma splitext_dir_base_ext (dir base ext' : string) :
  base <> EmptyString ->
  lacks "." dir = true -> lacks "." base = true -> lacks "/" base = true ->
  lacks "." ext' = true -> lacks "/" ext' = true ->
  splitext ("/" ++ dir ++ base ++ "." ++ ext') = ("/" ++ dir ++ base, "." ++ ext').
Proof.
  intros Hbase Hdd Hdb Hsb Hde Hse.
  set (w := dir ++ base).
  assert (Hw : lacks "." w = true) by (unfold w; now rewrite lacks_app, Hdd, Hdb).
  assert (Hlen : (String.length dir < String.length w)%nat).
  { unfold w. rewrite length_append. destruct base; [contradiction|cbn; lia]. }
  set (p := "/" ++ dir ++ base ++ "." ++ ext').
  assert (Hp : p = String "/" (w ++ String "." ext')).
  { unfold p, w. cbn [append]. f_equal. clear. induction dir; cbn; congruence. }
  assert (Hdot : rfind "." p = Z.of_nat (S (String.length w))).
  { rewrite Hp. unfold rfind. cbn [rfind_from].
    rewrite (rfind_from_app_lacks_l "." w _ (0 + 1)) by (lia || assumption).
    rewrite rfind_from_dot_ext by (lia || assumption).
    destruct (Z.leb_spec 0 (0 + 1 + Z.of_nat (String.length w))); lia. }
  assert (Hsep : (0 <= rfind "/" p <= Z.of_nat (String.length dir))%Z).
  { assert (E : p = ("/" ++ dir) ++ (base ++ "." ++ ext')).
    { unfold p. cbn [append]. reflexivity. }
    rewrite E. unfold rfind.
    rewrite rfind_from_app_lacks_r
      by (rewrite lacks_app, Hsb; cbn [append]; unfold lacks in *; cbn [all_chars];
          now rewrite Hse).
    cbn [append rfind_from].
    pose proof (rfind_from_upper_bound "/" dir (0 + 1) ltac:(lia)).
    destruct (Z.leb_spec 0 (rfind_from "/" (0 + 1) dir));
      rewrite ?Ascii.eqb_refl; lia. }
  unfold splitext. fold p. rewrite Hdot.
  destruct (Z.ltb_spec (rfind "/" p) (Z.of_nat (S (String.length w)))); [|lia].
  set (s := rfind "/" p) in *.
  assert (Hn : exists n, Z.to_nat (Z.of_nat (S (String.length w)) - (s + 1)) = S n).
  { exists (String.length w - Z.to_nat s - 1)%nat. lia. }
  destruct Hn as [n ->].
  replace (Z.to_nat (s + 1)) with (S (Z.to_nat s)) by lia.
  cbn [meets_non_dot].
  assert (Hch : exists ch, substring (S (Z.to_nat s)) 1 p = String ch EmptyString /\
                           Ascii.eqb ch "." = false).
  { rewrite Hp. cbn [substring]. apply substring_1_lacks; [exact Hw|lia]. }
  destruct Hch as (ch & -> & Hne).
  cbn [String.eqb]. rewrite Hne. cbn [negb].
  rewrite Nat2Z.id.
  assert (Hfst : slice 0 (S (String.length w)) p = "/" ++ dir ++ base).
  { unfold slice. rewrite Nat.sub_0_r, Hp.
    change (S (String.length w)) with (String.length (String "/" w)).
    change (String "/" (w ++ String "." ext')) with (String "/" w ++ String "." ext').
    now rewrite substring_0_app. }
  f_equal; [exact Hfst|].
  pose proof (substring_split (S (String.length w)) p) as Hcat.
  unfold slice in Hfst. rewrite Nat.sub_0_r in Hfst. rewrite Hfst in Hcat.
  unfold slice_from.
  apply (append_inv_head ("/" ++ dir ++ base)).
  rewrite Hcat. unfold p. cbn [append]. f_equal.
  clear. induction dir; cbn [append]; [reflexivity|]. now f_equal.
Qed.

(** A slash, then a directory part without dots, a non-empty base name
    without dots or slashes, and one of the four extensions: such a
    string is accepted. *)
Theorem is_valid_url_accepts_dir_base_ext (dir base ext : string) :
  base <> EmptyString ->
  lacks "." dir = true -> lacks "." base = true -> lacks "/" base = true ->
  In ext ImageURL.valid_extensions ->
  ImageURL.is_valid_url [VStr ("/" ++ dir ++ base ++ ext)] = Return true.
Proof.
  intros Hbase Hdd Hdb Hsb Hext.
  rewrite is_valid_url_nonempty by discriminate.
  assert (Hsplit : splitext ("/" ++ dir ++ base ++ ext) = ("/" ++ dir ++ base, ext)).
  { cbn [In ImageURL.valid_extensions] in Hext.
    destruct Hext as [<-|[<-|[<-|[<-|[]]]]].
    - now apply (splitext_dir_base_ext dir base "jpg").
    - now apply (splitext_dir_base_ext dir base "png").
    - now apply (splitext_dir_base_ext dir base "tiff").
    - now apply (splitext_dir_base_ext dir base "gif"). }
  rewrite Hsplit. cbn [fst snd append begins_with_slash].
  rewrite Ascii.eqb_refl. cbn [andb]. f_equal.
  cbn [In ImageURL.valid_extensions] in Hext.
  destruct Hext as [<-|[<-|[<-|[<-|[]]]]]; reflexivity.
Qed.

Lemma is_valid_url_accepts_dir_base_ext_witness :
  ImageURL.is_valid_url [VStr ("/" ++ "images/2019/" ++ "a" ++ ".png")] = Return true.
Proof.
  apply (is_valid_url_accepts_dir_base_ext "images/2019/" "a" ".png");
    try reflexivity; [discriminate | right; left; reflexivity].
Defined.

(** A numeric north outside (-90, 90) ends the latitude check before
    south is looked at: with numeric east and west, [Location] raises
    its generic exception even when south is a [LatLong], which
    [float] would refuse. *)
Theorem Location_init_north_checked_first
        (center south : Location.point) (n e w : float) :
  PrimFloat.ltb (-90)%float n && PrimFloat.ltb n 90%float = false ->
  Location.__init__ center (Location.OfFloat n) south
                    (Location.OfFloat e) (Location.OfFloat w) =
  Raise Location.generic_failure.
Proof.
  intros H.
  unfold Location.__init__, Location.validate_latitudes, Location.validate_longitudes.
  cbn [Location.py_float bind]. rewrite H. cbn [bind].
  destruct (PrimFloat.ltb e 180%float); reflexivity.
Qed.

Lemma Location_init_north_checked_first_witness :
  Location.__init__ (Location.OfFloat 0) (Location.OfFloat 95)
                    (Location.OfLatLong (MkLatLong (-45) 0))
                    (Location.OfFloat 90) (Location.OfFloat (-90)) =
  Raise Location.generic_failure.
Proof.
  apply (Location_init_north_checked_first
           (Location.OfFloat 0) (Location.OfLatLong (MkLatLong (-45) 0)) 95 90 (-90)).
  reflexivity.
Defined.
